(** * A shallow embedding of the blog data-access layer of faithnte.com

    Sources embedded here:
    - [src/types/blog.ts]  (records [BlogPost], [BlogPostMeta],
      [PaginatedBlogPosts], [APIResponse]);
    - [src/lib/blog.ts]    (the WordPress fetch with retry and fallback, the
      five-minute cache and the query functions built on it);
    - [src/pages/api/blog/[slug].ts] and [src/pages/api/blog/tags/[tag].ts]
      (the REST handlers).

    Effects.  The module-level variables [postsCache] and [cacheTimestamp]
    are threaded as an explicit [CacheState].  The outside world seen by one
    call of [getAllPosts] is a [World]: the value of [Date.now()] and the
    outcome of the n-th HTTP request.  Observable effects (requests sent,
    [setTimeout] delays) are recorded in a trace of [Event]s.  Exceptions
    (a rejected promise) are the [Throw] case of [result].  Console logging
    is not modelled. *)

From Stdlib Require Import List String Ascii ZArith Bool Lia Permutation Sorted.
From Stdlib Require DecimalZ.
Import ListNotations.
Open Scope string_scope.

(** ** Records of [src/types/blog.ts] *)

Record BlogPost := mkBlogPost {
  id : string;
  title : string;
  slug : string;
  excerpt : string;
  content : string;
  author : string;
  publishedAt : string;
  updatedAt : string;
  tags : list string;
  featured : bool;
  published : bool;
  coverImage : option string
}.

(** Rocq projections are global, so the fields of [BlogPostMeta] carry the
    prefix [m_]; the record has exactly the fields of the TypeScript
    interface. *)
Record BlogPostMeta := mkBlogPostMeta {
  m_id : string;
  m_title : string;
  m_slug : string;
  m_excerpt : string;
  m_author : string;
  m_publishedAt : string;
  m_tags : list string;
  m_featured : bool;
  m_coverImage : option string
}.

(** Page numbers are integers here: the callers obtain them from
    [parseInt]. *)
Record Pagination := mkPagination {
  currentPage : Z;
  totalPages : Z;
  totalPosts : Z;
  hasNext : bool;
  hasPrev : bool
}.

Record PaginatedBlogPosts := mkPaginatedBlogPosts {
  posts : list BlogPostMeta;
  pagination : Pagination
}.

Record APIResponse (T : Type) := mkAPIResponse {
  success : bool;
  data : option T;
  error : option string;
  message : option string
}.
Arguments mkAPIResponse {T} _ _ _ _.
Arguments success {T} _.
Arguments data {T} _.
Arguments error {T} _.
Arguments message {T} _.

(** ** The WordPress REST payload (interface [WordPressPost]); only the
    fields that [transformWordPressPost] reads are kept. *)

Record WpAuthor := mkWpAuthor { wa_name : string }.
Record WpMedia := mkWpMedia { wm_source_url : string }.
Record WpTerm := mkWpTerm { wt_slug : string; wt_taxonomy : string }.

Record WpEmbedded := mkWpEmbedded {
  emb_author : option (list WpAuthor);
  emb_featuredmedia : option (list WpMedia);
  emb_term : option (list (list WpTerm))
}.

Record WordPressPost := mkWordPressPost {
  wp_id : Z;
  wp_date : string;
  wp_modified : string;
  wp_slug : string;
  wp_status : string;
  wp_title_rendered : string;
  wp_content_rendered : string;
  wp_excerpt_rendered : string;
  wp_embedded : option WpEmbedded
}.

(** ** String helpers used by [transformWordPressPost] *)

(** [Number.prototype.toString] on an integer: its decimal digits. *)
Fixpoint uint_to_string (u : Decimal.uint) : string :=
  match u with
  | Decimal.Nil => ""
  | Decimal.D0 u => String "0" (uint_to_string u)
  | Decimal.D1 u => String "1" (uint_to_string u)
  | Decimal.D2 u => String "2" (uint_to_string u)
  | Decimal.D3 u => String "3" (uint_to_string u)
  | Decimal.D4 u => String "4" (uint_to_string u)
  | Decimal.D5 u => String "5" (uint_to_string u)
  | Decimal.D6 u => String "6" (uint_to_string u)
  | Decimal.D7 u => String "7" (uint_to_string u)
  | Decimal.D8 u => String "8" (uint_to_string u)
  | Decimal.D9 u => String "9" (uint_to_string u)
  end.

Definition number_toString (n : Z) : string :=
  match Z.to_int n with
  | Decimal.Pos u => uint_to_string u
  | Decimal.Neg u => String "-" (uint_to_string u)
  end.

Fixpoint has_gt (s : string) : bool :=
  match s with
  | EmptyString => false
  | String c rest => Ascii.eqb c ">" || has_gt rest
  end.

(** [s.replace(/<[^>]*>/g, "")]: a ['<'] that has a ['>'] somewhere after
    it starts a match that ends at the first such ['>']; a ['<'] with no
    ['>'] after it is kept. *)
Fixpoint strip_tags (s : string) : string :=
  match s with
  | EmptyString => EmptyString
  | String c rest =>
      if Ascii.eqb c "<" && has_gt rest then skip_tag rest
      else String c (strip_tags rest)
  end
with skip_tag (s : string) : string :=
  match s with
  | EmptyString => EmptyString
  | String c rest => if Ascii.eqb c ">" then strip_tags rest else skip_tag rest
  end.

(** White space removed by [String.prototype.trim], restricted to the
    ASCII range (tab, line feed, vertical tab, form feed, carriage return,
    space); the strings of this model are byte strings. *)
Definition is_ws (c : ascii) : bool :=
  let n := nat_of_ascii c in (Nat.leb 9 n && Nat.leb n 13) || Nat.eqb n 32.

Fixpoint drop_ws (l : list ascii) : list ascii :=
  match l with
  | [] => []
  | c :: rest => if is_ws c then drop_ws rest else l
  end.

Definition trim (s : string) : string :=
  string_of_list_ascii
    (rev (drop_ws (rev (drop_ws (list_ascii_of_string s))))).

(** [arr?.[0]]: the first element, if any. *)
Definition first {A} (l : list A) : option A :=
  match l with [] => None | x :: _ => Some x end.

Definition transformWordPressPost (wpPost : WordPressPost) : BlogPost :=
  let authorName :=
    match option_map emb_author (wp_embedded wpPost) with
    | Some (Some authors) =>
        match first authors with
        | Some a => if String.eqb (wa_name a) "" then "Faith Nte" else wa_name a
        | None => "Faith Nte"
        end
    | _ => "Faith Nte"
    end in
  let coverImage :=
    match option_map emb_featuredmedia (wp_embedded wpPost) with
    | Some (Some media) => option_map wm_source_url (first media)
    | _ => None
    end in
  let tags :=
    match option_map emb_term (wp_embedded wpPost) with
    | Some (Some terms) =>
        match first terms with
        | Some ts =>
            map wt_slug
              (List.filter (fun term => String.eqb (wt_taxonomy term) "post_tag") ts)
        | None => []
        end
    | _ => []
    end in
  let cleanExcerpt := trim (strip_tags (wp_excerpt_rendered wpPost)) in
  {| id := number_toString (wp_id wpPost);
     title := wp_title_rendered wpPost;
     slug := wp_slug wpPost;
     excerpt := cleanExcerpt;
     content := wp_content_rendered wpPost;
     author := authorName;
     publishedAt := wp_date wpPost;
     updatedAt := wp_modified wpPost;
     tags := tags;
     featured := false;
     published := String.eqb (wp_status wpPost) "publish";
     coverImage := coverImage |}.

(** ** Fallback posts ([getFallbackPosts]).  The three HTML bodies of the
    [content] fields are long template literals that no property below
    reads; each is represented by a short marker string.  Every other
    field is copied from the source. *)

Definition getFallbackPosts : list BlogPost :=
  [ {| id := "49";
       title := "How We Transformed NHS GP Website with WordPress & Nightingale Theme and How You Can Achieve the Same";
       slug := "gp-website-with-wordpress-nightingale-theme";
       excerpt := "In May 2023, NHSE released a GP website benchmarking and improvement tool. The tool has three focuses but the top two are: The top tasks that patients want to do on a GP website and The things that patients found most challenging on GP websites. At our PCN, we used this tool to benchmark our GP websites, improve them, and create an adjusted benchmarking framework that meets all NHS guidelines.";
       content := "<html body of post 49>";
       author := "Faith Nte";
       publishedAt := "2025-01-12T22:06:33";
       updatedAt := "2025-02-03T20:04:28";
       tags := ["nhs"; "wordpress"; "website"];
       featured := true;
       published := true;
       coverImage := Some "https://blog.faithnte.com/wp-content/uploads/2025/01/transformed-gp-website-with-wordpress-cms-and-nightingale-theme.png" |};
    {| id := "22";
       title := "Achieved 9% Growth in NHS App Uptake in 8 Months";
       slug := "9-nhs-app-uptake-in-8-months";
       excerpt := "Our PCN got into 2024 at 55% NHS App uptake. A fairly good amount, but our ICB wanted 70% by December 2024. If we increased monthly registration from 140 to 220, we could only reach 70% by December 2025 (one year later).";
       content := "<html body of post 22>";
       author := "Faith Nte";
       publishedAt := "2025-01-01T21:49:13";
       updatedAt := "2025-02-03T20:04:51";
       tags := ["nhs"; "digital-transformation"];
       featured := true;
       published := true;
       coverImage := Some "https://blog.faithnte.com/wp-content/uploads/2025/01/nhs-app-uptake-growth.png" |};
    {| id := "7";
       title := "Care Home Proxy Access: How We Did It – 4 Steps to Achieve the Same with This NHS Template";
       slug := "care-home-proxy-access";
       excerpt := "Care home proxy access enables care home staff to access residents' GP services on time. Every week, a GP from the surgery gets an appointment to visit a resident of a care home who has a medical problem. Any observation from such a visit is recorded in the resident's patient profile in the GP system.";
       content := "<html body of post 7>";
       author := "Faith Nte";
       publishedAt := "2024-12-21T12:11:50";
       updatedAt := "2025-02-03T20:05:15";
       tags := ["nhs"; "care-homes"];
       featured := true;
       published := true;
       coverImage := Some "https://blog.faithnte.com/wp-content/uploads/2024/12/care-home-proxy-access.png" |} ].

(** ** The outside world of one request *)

(** What [response.json()] yields: a parse failure (the promise rejects),
    [null], an array of well-formed posts, or any other JSON value (an
    object, a number, a string, an array with an ill-formed element) on
    which [wpPosts.map(transformWordPressPost)] throws. *)
Inductive JsonBody :=
| BodyUnparsable
| BodyNull
| BodyPosts (wpPosts : list WordPressPost)
| BodyMalformed.

(** One [fetch]: it rejects (network error, or the 20 s [AbortController]
    timeout), or it resolves to a response with a status and a body. *)
Inductive FetchOutcome :=
| NetworkFailure
| Response (status : Z) (body : JsonBody).

(** [Response.ok]: the status is in 200..299. *)
Definition response_ok (status : Z) : bool := (200 <=? status)%Z && (status <=? 299)%Z.

Record World := mkWorld {
  now : Z;                          (* Date.now() at the start of getAllPosts *)
  net : nat -> FetchOutcome          (* outcome of the request of attempt n *)
}.

(** ** Results, exceptions and the effect monad *)

(** A thrown value: an [Error] with its [message], or anything else. *)
Inductive exn :=
| ErrorObj (msg : string)
| NonError.

Inductive result (A : Type) :=
| Return (a : A)
| Throw (e : exn).
Arguments Return {A} _.
Arguments Throw {A} _.

Inductive Event :=
| EvFetch (attempt : nat)   (* a request is sent, attempt number [attempt] *)
| EvSleep (ms : Z).         (* await new Promise(r => setTimeout(r, ms)) *)

Record CacheState := mkCacheState {
  postsCache : option (list BlogPost);   (* let postsCache: BlogPost[] | null *)
  cacheTimestamp : Z                     (* let cacheTimestamp *)
}.

Definition initialCache : CacheState :=
  {| postsCache := None; cacheTimestamp := 0 |}.

Definition M (A : Type) : Type := CacheState -> result A * list Event * CacheState.

Definition ret {A} (a : A) : M A := fun st => (Return a, [], st).

Definition bind {A B} (m : M A) (k : A -> M B) : M B :=
  fun st =>
    match m st with
    | (Return a, tr1, st1) =>
        let '(r, tr2, st2) := k a st1 in (r, (tr1 ++ tr2)%list, st2)
    | (Throw e, tr1, st1) => (Throw e, tr1, st1)
    end.

Notation "x <- m ;; k" := (bind m (fun x => k))
  (at level 61, m at next level, right associativity).

Definition emit (ev : Event) : M unit := fun st => (Return tt, [ev], st).
Definition get_state : M CacheState := fun st => (Return st, [], st).
Definition put_state (st : CacheState) : M unit := fun _ => (Return tt, [], st).

(** [try { m } catch (error) { h(error) }] *)
Definition try_catch {A} (m : M A) (h : exn -> M A) : M A :=
  fun st =>
    match m st with
    | (Return a, tr1, st1) => (Return a, tr1, st1)
    | (Throw e, tr1, st1) =>
        let '(r, tr2, st2) := h e st1 in (r, (tr1 ++ tr2)%list, st2)
    end.

(** ** [fetchWordPressPosts] *)

Definition maxRetries : nat := 3.

(** The body of the [try] block of one attempt, after the request. *)
Definition run_attempt (o : FetchOutcome) : result (list BlogPost) :=
  match o with
  | NetworkFailure => Throw (ErrorObj "fetch failed")
  | Response status body =>
      if negb (response_ok status) then Throw (ErrorObj "WordPress API error")
      else
        match body with
        | BodyUnparsable => Throw (ErrorObj "invalid JSON")
        | BodyNull => Throw (ErrorObj "No posts returned from API")
        | BodyPosts [] => Throw (ErrorObj "No posts returned from API")
        | BodyPosts wpPosts => Return (map transformWordPressPost wpPosts)
        | BodyMalformed => Throw (ErrorObj "wpPosts.map is not a function")
        end
  end.

(** [for (let attempt = ...; attempt <= maxRetries; attempt++)]: [fuel] is
    the number of iterations left, [maxRetries - attempt + 1].  [None]
    means the loop ran to its end without returning. *)
Fixpoint fetch_loop (w : World) (fuel attempt : nat) : M (option (list BlogPost)) :=
  match fuel with
  | O => ret None
  | S fuel' =>
      try_catch
        (_ <- emit (EvFetch attempt) ;;
         ps <- (fun st => (run_attempt (net w attempt), [], st)) ;;
         ret (Some ps))
        (fun _ =>
           _ <- (if Nat.ltb attempt maxRetries
                 then emit (EvSleep (Z.of_nat attempt * 2000)%Z)
                 else ret tt) ;;
           fetch_loop w fuel' (S attempt))
  end.

Definition fetchWordPressPosts (w : World) : M (list BlogPost) :=
  r <- fetch_loop w maxRetries 1 ;;
  match r with
  | Some ps => ret ps
  | None => ret getFallbackPosts
  end.

(** ** [getAllPosts] and the query functions *)

Definition CACHE_DURATION : Z := (5 * 60 * 1000)%Z.

Definition getAllPosts (w : World) : M (list BlogPost) :=
  st <- get_state ;;
  match postsCache st with
  | Some cached =>
      if (now w - cacheTimestamp st <? CACHE_DURATION)%Z then ret cached
      else
        ps <- fetchWordPressPosts w ;;
        _ <- put_state {| postsCache := Some ps; cacheTimestamp := now w |} ;;
        ret ps
  | None =>
      ps <- fetchWordPressPosts w ;;
      _ <- put_state {| postsCache := Some ps; cacheTimestamp := now w |} ;;
      ret ps
  end.

(** [Array.prototype.slice(start, end)]: negative indices count from the
    end, indices are clamped to [0, length]. *)
Definition js_slice {A} (l : list A) (start end_ : Z) : list A :=
  let len := Z.of_nat (List.length l) in
  let rel (x : Z) := if (x <? 0)%Z then Z.max (len + x) 0 else Z.min x len in
  let s := rel start in
  let e := rel end_ in
  firstn (Z.to_nat (e - s)) (skipn (Z.to_nat s) l).

(** [Math.ceil(a / b)] for [b <> 0] ([Z.div] rounds towards minus
    infinity, whatever the sign of [b]).  For [b = 0] JavaScript yields
    [Infinity] or [NaN], which this integer model does not represent. *)
Definition js_ceil_div (a b : Z) : Z := (- ((- a) / b))%Z.

(** The object literal [{ id: post.id, ..., coverImage: post.coverImage }]
    that [getPaginatedPosts] and the tag handler both build. *)
Definition post_to_meta (post : BlogPost) : BlogPostMeta :=
  {| m_id := id post;
     m_title := title post;
     m_slug := slug post;
     m_excerpt := excerpt post;
     m_author := author post;
     m_publishedAt := publishedAt post;
     m_tags := tags post;
     m_featured := featured post;
     m_coverImage := coverImage post |}.

Definition getPaginatedPosts (w : World) (page limit : Z) : M PaginatedBlogPosts :=
  allPosts <- getAllPosts w ;;
  let startIndex := ((page - 1) * limit)%Z in
  let endIndex := (startIndex + limit)%Z in
  let ps := js_slice allPosts startIndex endIndex in
  let total := Z.of_nat (List.length allPosts) in
  let pages := js_ceil_div total limit in
  ret {| posts := map post_to_meta ps;
         pagination := {| currentPage := page;
                          totalPages := pages;
                          totalPosts := total;
                          hasNext := (page <? pages)%Z;
                          hasPrev := (1 <? page)%Z |} |}.

(** [allPosts.find((post) => post.slug === slug) || null]: a post object
    is truthy, so [|| null] only turns [undefined] into [null]. *)
Definition getPostBySlug (w : World) (s : string) : M (option BlogPost) :=
  allPosts <- getAllPosts w ;;
  ret (List.find (fun post => String.eqb (slug post) s) allPosts).

(** [{ ...post, featured: true }] *)
Definition mark_featured (post : BlogPost) : BlogPost :=
  {| id := id post;
     title := title post;
     slug := slug post;
     excerpt := excerpt post;
     content := content post;
     author := author post;
     publishedAt := publishedAt post;
     updatedAt := updatedAt post;
     tags := tags post;
     featured := true;
     published := published post;
     coverImage := coverImage post |}.

Definition getFeaturedPosts (w : World) : M (list BlogPost) :=
  allPosts <- getAllPosts w ;;
  ret (map mark_featured (js_slice allPosts 0 3)).

(** [post.tags.includes(tag)] *)
Definition includes (l : list string) (x : string) : bool :=
  existsb (fun y => String.eqb y x) l.

Definition getPostsByTag (w : World) (tag : string) : M (list BlogPost) :=
  allPosts <- getAllPosts w ;;
  ret (List.filter (fun post => includes (tags post) tag) allPosts).

(** A JavaScript [Set<string>] as its elements in insertion order;
    [add] leaves the set unchanged when the element is present. *)
Definition set_add (s : list string) (x : string) : list string :=
  if includes s x then s else (s ++ [x])%list.

(** [Array.prototype.sort()] without comparator orders strings by code
    units; on the distinct elements of a set every sorting algorithm gives
    the same array, here by insertion. *)
Fixpoint insert_sorted (x : string) (l : list string) : list string :=
  match l with
  | [] => [x]
  | y :: ys => if String.ltb x y then x :: y :: ys else y :: insert_sorted x ys
  end.

Definition js_sort (l : list string) : list string :=
  fold_right insert_sorted [] l.

Definition getAllTags (w : World) : M (list string) :=
  allPosts <- getAllPosts w ;;
  let tagSet :=
    fold_left (fun s post => fold_left set_add (tags post) s) allPosts [] in
  ret (js_sort tagSet).

(** ** REST handlers *)

Record HttpResponse (T : Type) := mkHttpResponse {
  status : Z;
  body : APIResponse T;           (* the value passed to JSON.stringify *)
  headers : list (string * string)
}.
Arguments mkHttpResponse {T} _ _ _.
Arguments status {T} _.
Arguments body {T} _.
Arguments headers {T} _.

Definition json_headers : list (string * string) :=
  [("Content-Type", "application/json"); ("Access-Control-Allow-Origin", "*")].

Definition respond {T} (code : Z) (r : APIResponse T) : HttpResponse T :=
  mkHttpResponse code r json_headers.

(** [!param] for a route parameter of type [string | undefined]. *)
Definition param_missing (p : option string) : bool :=
  match p with None => true | Some s => String.eqb s "" end.

(** [error instanceof Error ? error.message : "Unknown error"] *)
Definition error_message (e : exn) : string :=
  match e with ErrorObj msg => msg | NonError => "Unknown error" end.

(** [GET] of [src/pages/api/blog/[slug].ts], over the imported lookup. *)
Definition GET_slug_with (lookup : string -> M (option BlogPost))
    (param_slug : option string) : M (HttpResponse BlogPost) :=
  try_catch
    (match param_slug with
     | Some s =>
         if String.eqb s "" then
           ret (respond 400 (mkAPIResponse false None (Some "Slug parameter is required") None))
         else
           post <- lookup s ;;
           match post with
           | None =>
               ret (respond 404 (mkAPIResponse false None (Some "Post not found") None))
           | Some p =>
               ret (respond 200 (mkAPIResponse true (Some p) None None))
           end
     | None =>
         ret (respond 400 (mkAPIResponse false None (Some "Slug parameter is required") None))
     end)
    (fun e =>
       ret (respond 500 (mkAPIResponse false None (Some "Failed to fetch blog post")
                                       (Some (error_message e))))).

Definition GET_slug (w : World) : option string -> M (HttpResponse BlogPost) :=
  GET_slug_with (getPostBySlug w).

(** [GET] of [src/pages/api/blog/tags/[tag].ts], over the imported query. *)
Definition GET_tag_with (query : string -> M (list BlogPost))
    (param_tag : option string) : M (HttpResponse (list BlogPostMeta)) :=
  try_catch
    (match param_tag with
     | Some t =>
         if String.eqb t "" then
           ret (respond 400 (mkAPIResponse false None (Some "Tag parameter is required") None))
         else
           ps <- query t ;;
           ret (respond 200 (mkAPIResponse true (Some (map post_to_meta ps)) None None))
     | None =>
         ret (respond 400 (mkAPIResponse false None (Some "Tag parameter is required") None))
     end)
    (fun e =>
       ret (respond 500 (mkAPIResponse false None (Some "Failed to fetch blog posts by tag")
                                       (Some (error_message e))))).

Definition GET_tag (w : World) : option string -> M (HttpResponse (list BlogPostMeta)) :=
  GET_tag_with (getPostsByTag w).

(** [GET] of the list route [src/pages/api/blog/index.ts] (the unnamed
    [part_002]), over the imported [getAllPosts] and [getPaginatedPosts].
    The route passes its [page] and [limit] query parameters through
    [parseInt]; [page] and [limit] here are the integers it yields (the
    [NaN] case is not represented).  [featured_param] is
    [searchParams.get("featured")]. *)
Inductive IndexData :=
| FeaturedData (metas : list BlogPostMeta)      (* APIResponse<BlogPostMeta[]> *)
| PageData (result : PaginatedBlogPosts).       (* APIResponse<PaginatedBlogPosts> *)

Definition GET_index_with (getAll : M (list BlogPost))
    (paginate : Z -> Z -> M PaginatedBlogPosts)
    (page limit : Z) (featured_param : option string) : M (HttpResponse IndexData) :=
  try_catch
    (let featured :=
       match featured_param with Some v => String.eqb v "true" | None => false end in
     if featured then
       allPosts <- getAll ;;
       let featuredPosts := map mark_featured (js_slice allPosts 0 3) in
       ret (respond 200 (mkAPIResponse true
                           (Some (FeaturedData (map post_to_meta featuredPosts))) None None))
     else
       paginatedResult <- paginate page limit ;;
       ret (respond 200 (mkAPIResponse true (Some (PageData paginatedResult)) None None)))
    (fun e =>
       ret (respond 500 (mkAPIResponse false None (Some "Failed to fetch blog posts")
                                       (Some (error_message e))))).


(** A string contains an HTML tag when some ['<'] has a ['>'] after it. *)
Fixpoint tag_free (s : string) : bool :=
  match s with
  | EmptyString => true
  | String c rest => (negb (Ascii.eqb c "<") || negb (has_gt rest)) && tag_free rest
  end.

(** * Properties *)

(** An attempt fails when its [try] block throws. *)
Definition attempt_failed (o : FetchOutcome) : Prop :=
  exists e, run_attempt o = Throw e.

Fixpoint count_fetches (tr : list Event) : nat :=
  match tr with
  | [] => O
  | EvFetch _ :: rest => S (count_fetches rest)
  | EvSleep _ :: rest => count_fetches rest
  end.

(** Names the sole content of a result triple. *)
Definition res_of {A} (x : result A * list Event * CacheState) : result A := fst (fst x).
Definition trace_of {A} (x : result A * list Event * CacheState) : list Event := snd (fst x).
Definition state_of {A} (x : result A * list Event * CacheState) : CacheState := snd x.

Ltac unfold_monad :=
  unfold bind, ret, emit, get_state, put_state, try_catch in *; cbn in *.

(** The three kinds of failure the retry loop is meant for. *)
Lemma network_failure_fails : attempt_failed NetworkFailure.
Proof. eexists; reflexivity. Qed.

Lemma not_ok_fails (s : Z) (b : JsonBody) :
  response_ok s = false -> attempt_failed (Response s b).
Proof. intros H. unfold attempt_failed, run_attempt. rewrite H. eexists; reflexivity. Qed.

Lemma empty_list_fails (s : Z) : attempt_failed (Response s (BodyPosts [])).
Proof. unfold attempt_failed, run_attempt. destruct (response_ok s); eexists; reflexivity. Qed.

(** The whole retry loop, unrolled: it sends at most three requests. *)
Lemma fetchWordPressPosts_unfold (w : World) (st : CacheState) :
  fetchWordPressPosts w st =
  match run_attempt (net w 1) with
  | Return ps => (Return ps, [EvFetch 1], st)
  | Throw _ =>
      match run_attempt (net w 2) with
      | Return ps => (Return ps, [EvFetch 1; EvSleep 2000; EvFetch 2], st)
      | Throw _ =>
          match run_attempt (net w 3) with
          | Return ps =>
              (Return ps, [EvFetch 1; EvSleep 2000; EvFetch 2; EvSleep 4000; EvFetch 3], st)
          | Throw _ =>
              (Return getFallbackPosts,
               [EvFetch 1; EvSleep 2000; EvFetch 2; EvSleep 4000; EvFetch 3], st)
          end
      end
  end.
Proof.
  unfold fetchWordPressPosts, fetch_loop. unfold_monad.
  destruct (run_attempt (net w 1)); cbn; [reflexivity |].
  destruct (run_attempt (net w 2)); cbn; [reflexivity |].
  destruct (run_attempt (net w 3)); cbn; reflexivity.
Qed.

(** [fetchWordPressPosts] never throws and leaves the cache alone. *)
Lemma fetchWordPressPosts_returns (w : World) (st : CacheState) :
  exists ps tr, fetchWordPressPosts w st = (Return ps, tr, st).
Proof.
  rewrite fetchWordPressPosts_unfold.
  destruct (run_attempt (net w 1)); [eauto |].
  destruct (run_attempt (net w 2)); [eauto |].
  destruct (run_attempt (net w 3)); eauto.
Qed.

(** A successful attempt returns a non-empty list. *)
Lemma run_attempt_nonempty (o : FetchOutcome) (ps : list BlogPost) :
  run_attempt o = Return ps -> ps <> [].
Proof.
  destruct o as [| s b]; cbn; [discriminate |].
  destruct (response_ok s); cbn; [| discriminate].
  destruct b as [| | [| wp wps] |]; try discriminate.
  intros H; inversion H; discriminate.
Qed.

Lemma fetchWordPressPosts_nonempty (w : World) (st : CacheState) ps tr st' :
  fetchWordPressPosts w st = (Return ps, tr, st') -> ps <> [] /\ st' = st.
Proof.
  rewrite fetchWordPressPosts_unfold.
  destruct (run_attempt (net w 1)) eqn:E1;
    [intros H; inversion H; subst; eauto using run_attempt_nonempty |].
  destruct (run_attempt (net w 2)) eqn:E2;
    [intros H; inversion H; subst; eauto using run_attempt_nonempty |].
  destruct (run_attempt (net w 3)) eqn:E3;
    intros H; inversion H; subst; eauto using run_attempt_nonempty.
  split; [discriminate | reflexivity].
Qed.

(** ** C1 *)

(** Claim C1: when every attempt of [fetchWordPressPosts] fails (network
    error, non-ok status, empty post list, or any other throw in the
    [try] block), it makes exactly three attempts and returns the three
    hard-coded fallback posts; the error does not reach the caller. *)
Theorem fetchWordPressPosts_all_fail (w : World) (st : CacheState)
  (Hfail : forall k, (1 <= k <= 3)%nat -> attempt_failed (net w k)) :
  fetchWordPressPosts w st =
    (Return getFallbackPosts,
     [EvFetch 1; EvSleep 2000; EvFetch 2; EvSleep 4000; EvFetch 3], st)
  /\ count_fetches (trace_of (fetchWordPressPosts w st)) = 3%nat
  /\ List.length getFallbackPosts = 3%nat.
Proof.
  assert (E : fetchWordPressPosts w st =
    (Return getFallbackPosts,
     [EvFetch 1; EvSleep 2000; EvFetch 2; EvSleep 4000; EvFetch 3], st)).
  { rewrite fetchWordPressPosts_unfold.
    destruct (Hfail 1%nat ltac:(lia)) as [e1 ->].
    destruct (Hfail 2%nat ltac:(lia)) as [e2 ->].
    destruct (Hfail 3%nat ltac:(lia)) as [e3 ->].
    reflexivity. }
  split; [exact E |]. rewrite E. split; reflexivity.
Qed.

Lemma fetchWordPressPosts_all_fail_witness :
  (forall k, (1 <= k <= 3)%nat -> attempt_failed (net (mkWorld 0 (fun _ => NetworkFailure)) k)) /\
  fetchWordPressPosts (mkWorld 0 (fun _ => NetworkFailure)) initialCache =
    (Return getFallbackPosts,
     [EvFetch 1; EvSleep 2000; EvFetch 2; EvSleep 4000; EvFetch 3], initialCache).
Proof.
  assert (H : forall k, (1 <= k <= 3)%nat ->
            attempt_failed (net (mkWorld 0 (fun _ => NetworkFailure)) k)).
  { intros k _. cbn. exact network_failure_fails. }
  split; [exact H |].
  apply (fetchWordPressPosts_all_fail (mkWorld 0 (fun _ => NetworkFailure)) initialCache H).
Defined.

(** ** C5 *)

Ltac split_trace :=
  repeat match goal with
  | H : _ = (?p ++ _)%list |- _ =>
      destruct p; cbn in H; try discriminate H; inversion H; subst; clear H
  end.

(** Claim C5: between two attempts the loop sleeps [attempt * 2000] ms:
    every sleep in the trace follows attempt [n] with [n < maxRetries] and
    lasts [n * 2000] ms; a failed first attempt is followed by a 2000 ms
    sleep and the second attempt, a failed second attempt by a 4000 ms
    sleep and the third; nothing follows the final attempt. *)
Theorem fetchWordPressPosts_backoff (w : World) (st : CacheState) :
  let tr := trace_of (fetchWordPressPosts w st) in
  (forall pre n ms post, tr = (pre ++ EvFetch n :: EvSleep ms :: post)%list ->
     ms = (Z.of_nat n * 2000)%Z /\ (n < maxRetries)%nat) /\
  (attempt_failed (net w 1) ->
     exists rest, tr = EvFetch 1 :: EvSleep (1 * 2000) :: EvFetch 2 :: rest) /\
  (attempt_failed (net w 1) -> attempt_failed (net w 2) ->
     exists rest, tr = EvFetch 1 :: EvSleep 2000 :: EvFetch 2
                       :: EvSleep (2 * 2000) :: EvFetch 3 :: rest) /\
  (forall pre post, tr = (pre ++ EvFetch maxRetries :: post)%list -> post = []).
Proof.
  cbn zeta. unfold trace_of. rewrite fetchWordPressPosts_unfold.
  destruct (run_attempt (net w 1)) eqn:E1; [| destruct (run_attempt (net w 2)) eqn:E2;
    [| destruct (run_attempt (net w 3)) eqn:E3]]; cbn;
  (split; [intros pre n ms post H; split_trace; split; (reflexivity || (unfold maxRetries; lia)) |]);
  (split; [intros [x He]; congruence || (eexists; reflexivity) |]);
  (split; [intros [x He] [x' He']; congruence || (eexists; reflexivity) |]);
  intros pre post H; split_trace; reflexivity.
Qed.

(** ** C2 *)

Lemma fetch_trace_nonempty (w : World) (st : CacheState) :
  trace_of (fetchWordPressPosts w st) <> [].
Proof.
  unfold trace_of. rewrite fetchWordPressPosts_unfold.
  destruct (run_attempt (net w 1)); [| destruct (run_attempt (net w 2));
    [| destruct (run_attempt (net w 3))]]; cbn; discriminate.
Qed.

Lemma getAllPosts_hit (w : World) (st : CacheState) cached :
  postsCache st = Some cached -> (now w - cacheTimestamp st < CACHE_DURATION)%Z ->
  getAllPosts w st = (Return cached, [], st).
Proof.
  intros Hc Ht. unfold getAllPosts, bind, get_state. cbn -[CACHE_DURATION].
  rewrite Hc. apply Z.ltb_lt in Ht. rewrite Ht. reflexivity.
Qed.

Lemma getAllPosts_miss (w : World) (st : CacheState) :
  (postsCache st = None \/ (now w - cacheTimestamp st >= CACHE_DURATION)%Z) ->
  exists ps tr,
    fetchWordPressPosts w st = (Return ps, tr, st) /\
    getAllPosts w st = (Return ps, tr, {| postsCache := Some ps; cacheTimestamp := now w |}).
Proof.
  intros Hmiss. destruct (fetchWordPressPosts_returns w st) as (ps & tr & Hf).
  exists ps, tr. split; [exact Hf |].
  unfold getAllPosts. unfold bind at 1. unfold get_state. cbn [fst snd].
  assert (Hmiss' : forall cached, postsCache st = Some cached ->
            (now w - cacheTimestamp st <? CACHE_DURATION)%Z = false).
  { intros c Hc. destruct Hmiss as [H | H]; [congruence | apply Z.ltb_ge; lia]. }
  destruct (postsCache st) as [c |] eqn:Hc.
  - rewrite (Hmiss' c eq_refl). unfold bind. rewrite Hf. cbn.
    rewrite app_nil_r. reflexivity.
  - unfold bind. rewrite Hf. cbn. rewrite app_nil_r. reflexivity.
Qed.

(** Claim C2: [getAllPosts] answers from the cache, sending no request,
    exactly when a cache is present and less than five minutes have
    passed since its timestamp; otherwise it runs [fetchWordPressPosts],
    stores its result and the current time as the new cache, and returns
    that result. *)
Theorem getAllPosts_cache (w : World) (st : CacheState) :
  (forall cached, postsCache st = Some cached ->
     (now w - cacheTimestamp st < 5 * 60 * 1000)%Z ->
     getAllPosts w st = (Return cached, [], st)) /\
  ((postsCache st = None \/ (now w - cacheTimestamp st >= 5 * 60 * 1000)%Z) ->
     exists ps tr,
       fetchWordPressPosts w st = (Return ps, tr, st) /\
       getAllPosts w st = (Return ps, tr, {| postsCache := Some ps; cacheTimestamp := now w |})) /\
  (trace_of (getAllPosts w st) = [] <->
     exists cached, postsCache st = Some cached /\
                    (now w - cacheTimestamp st < 5 * 60 * 1000)%Z).
Proof.
  split; [exact (getAllPosts_hit w st) |].
  split; [exact (getAllPosts_miss w st) |].
  split.
  - intros Htr.
    destruct (postsCache st) as [c |] eqn:Hc.
    + destruct (Z_lt_ge_dec (now w - cacheTimestamp st) (5 * 60 * 1000)) as [Hlt | Hge];
        [eauto |].
      destruct (getAllPosts_miss w st (or_intror Hge)) as (ps & tr & Hf & Hg).
      rewrite Hg in Htr. cbn in Htr.
      exfalso. apply (fetch_trace_nonempty w st). unfold trace_of. rewrite Hf. exact Htr.
    + destruct (getAllPosts_miss w st (or_introl Hc)) as (ps & tr & Hf & Hg).
      rewrite Hg in Htr. cbn in Htr.
      exfalso. apply (fetch_trace_nonempty w st). unfold trace_of. rewrite Hf. exact Htr.
  - intros (c & Hc & Hlt). unfold trace_of. rewrite (getAllPosts_hit w st c Hc Hlt).
    reflexivity.
Qed.

(** ** C9 *)

(** [postsCache] is private to the module and only [getAllPosts] writes
    it, so the reachable cache states are those produced by a sequence of
    [getAllPosts] calls from the initial one. *)
Inductive reachable : CacheState -> Prop :=
| reachable_init : reachable initialCache
| reachable_step (w : World) (st : CacheState) :
    reachable st -> reachable (state_of (getAllPosts w st)).

Definition cache_ok (st : CacheState) : Prop :=
  forall cached, postsCache st = Some cached -> cached <> [].

Lemma getAllPosts_ok (w : World) (st : CacheState) :
  cache_ok st ->
  exists ps tr st', getAllPosts w st = (Return ps, tr, st') /\ ps <> [] /\ cache_ok st'.
Proof.
  intros Hok.
  assert (Hmiss : postsCache st = None \/ (now w - cacheTimestamp st >= CACHE_DURATION)%Z ->
     exists ps tr st', getAllPosts w st = (Return ps, tr, st') /\ ps <> [] /\ cache_ok st').
  { intros Hm. destruct (getAllPosts_miss w st Hm) as (ps & tr & Hf & Hg).
    destruct (fetchWordPressPosts_nonempty w st ps tr st Hf) as [Hne _].
    exists ps, tr, {| postsCache := Some ps; cacheTimestamp := now w |}.
    split; [exact Hg | split; [exact Hne |]].
    intros c Hc. cbn in Hc. inversion Hc; subst. exact Hne. }
  destruct (postsCache st) as [c |] eqn:Hc; [| apply Hmiss; left; reflexivity].
  destruct (Z_lt_ge_dec (now w - cacheTimestamp st) CACHE_DURATION) as [Hlt | Hge].
  - exists c, [], st. split; [exact (getAllPosts_hit w st c Hc Hlt) |].
    split; [exact (Hok c Hc) | exact Hok].
  - apply Hmiss. right. exact Hge.
Qed.

Lemma reachable_cache_ok (st : CacheState) : reachable st -> cache_ok st.
Proof.
  induction 1 as [| w st _ IH].
  - intros c Hc. discriminate Hc.
  - destruct (getAllPosts_ok w st IH) as (ps & tr & st' & Hg & _ & Hok).
    unfold state_of. rewrite Hg. exact Hok.
Qed.

(** Claim C9: from every reachable cache state, [getAllPosts] returns (it
    does not throw) a non-empty array, and the next state is reachable;
    a response carrying zero posts is a failed attempt. *)
Theorem getAllPosts_nonempty (st : CacheState) (Hr : reachable st) (w : World) :
  (exists ps tr st', getAllPosts w st = (Return ps, tr, st') /\ ps <> [] /\ reachable st') /\
  (forall s, attempt_failed (Response s (BodyPosts []))).
Proof.
  split; [| exact empty_list_fails].
  destruct (getAllPosts_ok w st (reachable_cache_ok st Hr)) as (ps & tr & st' & Hg & Hne & _).
  exists ps, tr, st'. split; [exact Hg | split; [exact Hne |]].
  replace st' with (state_of (getAllPosts w st)) by (rewrite Hg; reflexivity).
  apply reachable_step. exact Hr.
Qed.

(** ** C3 *)

Lemma js_slice_nth {A} (l : list A) (s lim : Z) (i : nat) :
  (0 <= s)%Z -> (0 <= lim)%Z ->
  nth_error (js_slice l s (s + lim)) i =
  if (Z.of_nat i <? lim)%Z then nth_error l (Z.to_nat s + i) else None.
Proof.
  intros Hs Hl. unfold js_slice. cbv zeta.
  assert (E1 : (s <? 0)%Z = false) by (apply Z.ltb_ge; lia).
  assert (E2 : (s + lim <? 0)%Z = false) by (apply Z.ltb_ge; lia).
  rewrite E1, E2, nth_error_firstn, nth_error_skipn.
  destruct (Nat.ltb_spec i (Z.to_nat (Z.min (s + lim) (Z.of_nat (List.length l))
                                      - Z.min s (Z.of_nat (List.length l))))) as [Hi | Hi];
  destruct (Z.ltb_spec (Z.of_nat i) lim) as [Hi' | Hi'].
  - f_equal. lia.
  - lia.
  - symmetry. apply nth_error_None. lia.
  - reflexivity.
Qed.

Lemma js_ceil_div_spec (a b : Z) :
  (0 < b)%Z -> ((js_ceil_div a b - 1) * b < a <= js_ceil_div a b * b)%Z.
Proof.
  intros Hb. unfold js_ceil_div.
  pose proof (Z.div_mod (- a)%Z b ltac:(lia)) as Hdm.
  pose proof (Z.mod_pos_bound (- a)%Z b Hb) as Hr.
  set (q := ((- a) / b)%Z) in *. set (r := ((- a) mod b)%Z) in *. nia.
Qed.

(** Claim C3: for [page >= 1] and [limit >= 1], [getPaginatedPosts]
    returns the metadata of the posts of [getAllPosts] at indices
    [(page-1)*limit] to [page*limit - 1] (those that exist), in order,
    with [totalPosts] the number of posts, [totalPages] its quotient by
    [limit] rounded up, [hasNext = page < totalPages] and
    [hasPrev = page > 1]. *)
Theorem getPaginatedPosts_spec (w : World) (st : CacheState) (page limit : Z)
  (Hpage : (1 <= page)%Z) (Hlimit : (1 <= limit)%Z)
  (allPosts : list BlogPost) (tr : list Event) (st' : CacheState)
  (Hall : getAllPosts w st = (Return allPosts, tr, st')) :
  exists pg,
    getPaginatedPosts w page limit st = (Return pg, tr, st') /\
    (forall i : nat,
       nth_error (posts pg) i =
       if (Z.of_nat i <? limit)%Z
       then option_map post_to_meta
              (nth_error allPosts (Z.to_nat ((page - 1) * limit) + i))
       else None) /\
    totalPosts (pagination pg) = Z.of_nat (List.length allPosts) /\
    ((totalPages (pagination pg) - 1) * limit < totalPosts (pagination pg)
       <= totalPages (pagination pg) * limit)%Z /\
    hasNext (pagination pg) = (page <? totalPages (pagination pg))%Z /\
    hasPrev (pagination pg) = (1 <? page)%Z /\
    currentPage (pagination pg) = page.
Proof.
  unfold getPaginatedPosts. unfold bind at 1. rewrite Hall.
  cbv beta iota zeta delta [ret]. rewrite app_nil_r.
  eexists. split; [reflexivity |]. cbn [posts pagination totalPosts totalPages
                                       hasNext hasPrev currentPage].
  split.
  - intros i. rewrite nth_error_map, js_slice_nth by nia.
    destruct (Z.of_nat i <? limit)%Z; reflexivity.
  - split; [reflexivity |]. split; [apply js_ceil_div_spec; lia |].
    split; [reflexivity | split; reflexivity].
Qed.

(** ** C4 *)

(** The metadata view read as "the post minus its content": two posts
    have the same metadata exactly when they agree once their content is
    blanked out. *)
Definition erase_content (p : BlogPost) : BlogPost :=
  {| id := id p; title := title p; slug := slug p; excerpt := excerpt p;
     content := ""; author := author p; publishedAt := publishedAt p;
     updatedAt := updatedAt p; tags := tags p; featured := featured p;
     published := published p; coverImage := coverImage p |}.

Definition meta_omits_only_content : Prop :=
  forall p1 p2 : BlogPost,
    post_to_meta p1 = post_to_meta p2 <-> erase_content p1 = erase_content p2.

Definition fallback_post_49 : BlogPost :=
  match getFallbackPosts with p :: _ => p | [] => erase_content (mkBlogPost "" "" "" "" "" "" "" "" [] false false None) end.

(** The fallback post 49 with another [updatedAt] and [published]. *)
Definition fallback_post_49_edited : BlogPost :=
  {| id := id fallback_post_49; title := title fallback_post_49;
     slug := slug fallback_post_49; excerpt := excerpt fallback_post_49;
     content := content fallback_post_49; author := author fallback_post_49;
     publishedAt := publishedAt fallback_post_49;
     updatedAt := "2026-01-01T00:00:00";
     tags := tags fallback_post_49; featured := featured fallback_post_49;
     published := false; coverImage := coverImage fallback_post_49 |}.

(** Claim C4, refuted: [BlogPostMeta] also drops [updatedAt] and
    [published]; a post and a copy with another [updatedAt] and
    [published] have the same metadata though they differ beyond their
    content. *)
Lemma meta_omits_more_than_content : ~ meta_omits_only_content.
Proof.
  intros H.
  assert (Hm : post_to_meta fallback_post_49 = post_to_meta fallback_post_49_edited)
    by reflexivity.
  apply H in Hm. unfold erase_content in Hm. cbn in Hm. discriminate Hm.
Qed.

(** Claim C4, as the code has it: the metadata built by [post_to_meta]
    (in [getPaginatedPosts] and the tag handler) copies the nine fields
    [id], [title], [slug], [excerpt], [author], [publishedAt], [tags],
    [featured] and [coverImage] unchanged, and two posts have the same
    metadata exactly when they agree on these nine fields: [content],
    [updatedAt] and [published] are the fields it omits. *)
Theorem post_to_meta_fields :
  (forall p : BlogPost,
     m_id (post_to_meta p) = id p /\ m_title (post_to_meta p) = title p /\
     m_slug (post_to_meta p) = slug p /\ m_excerpt (post_to_meta p) = excerpt p /\
     m_author (post_to_meta p) = author p /\
     m_publishedAt (post_to_meta p) = publishedAt p /\
     m_tags (post_to_meta p) = tags p /\ m_featured (post_to_meta p) = featured p /\
     m_coverImage (post_to_meta p) = coverImage p) /\
  (forall p1 p2 : BlogPost,
     post_to_meta p1 = post_to_meta p2 <->
     (id p1 = id p2 /\ title p1 = title p2 /\ slug p1 = slug p2 /\
      excerpt p1 = excerpt p2 /\ author p1 = author p2 /\
      publishedAt p1 = publishedAt p2 /\ tags p1 = tags p2 /\
      featured p1 = featured p2 /\ coverImage p1 = coverImage p2)).
Proof.
  split.
  - intros p. repeat split.
  - intros [] []; cbn. split.
    + intros H. injection H as ?. subst. repeat split.
    + intros (-> & -> & -> & -> & -> & -> & -> & -> & ->). reflexivity.
Qed.

(** ** C6 *)

Definition slug_missing_response : HttpResponse BlogPost :=
  respond 400 (mkAPIResponse false None (Some "Slug parameter is required") None).

Definition tag_missing_response : HttpResponse (list BlogPostMeta) :=
  respond 400 (mkAPIResponse false None (Some "Tag parameter is required") None).

(** Claim C6: the slug handler answers 400 with [success = false] when the
    parameter is absent (or empty), 404 with [success = false] when
    [getPostBySlug] yields [null], 200 with [success = true] and the post
    when it yields one, and 500 with [success = false] when the lookup
    throws; the tag handler answers 400 when the parameter is absent (or
    empty), 200 with [success = true] and the metadata of the posts
    otherwise, and 500 when the query throws.  The handlers themselves
    never throw. *)
Theorem route_handlers_spec :
  (forall (w : World) (st : CacheState),
     GET_slug w None st = (Return slug_missing_response, [], st) /\
     GET_slug w (Some "") st = (Return slug_missing_response, [], st)) /\
  (forall (w : World) (st : CacheState) (s : string) tr st',
     s <> "" -> getPostBySlug w s st = (Return None, tr, st') ->
     GET_slug w (Some s) st =
       (Return (respond 404 (mkAPIResponse false None (Some "Post not found") None)), tr, st')) /\
  (forall (w : World) (st : CacheState) (s : string) (p : BlogPost) tr st',
     s <> "" -> getPostBySlug w s st = (Return (Some p), tr, st') ->
     GET_slug w (Some s) st =
       (Return (respond 200 (mkAPIResponse true (Some p) None None)), tr, st')) /\
  (forall lookup (st : CacheState) (s : string) e tr st',
     s <> "" -> lookup s st = (Throw e, tr, st') ->
     GET_slug_with lookup (Some s) st =
       (Return (respond 500 (mkAPIResponse false None (Some "Failed to fetch blog post")
                                          (Some (error_message e)))), tr, st')) /\
  (forall (w : World) (st : CacheState),
     GET_tag w None st = (Return tag_missing_response, [], st) /\
     GET_tag w (Some "") st = (Return tag_missing_response, [], st)) /\
  (forall (w : World) (st : CacheState) (t : string) ps tr st',
     t <> "" -> getPostsByTag w t st = (Return ps, tr, st') ->
     GET_tag w (Some t) st =
       (Return (respond 200 (mkAPIResponse true (Some (map post_to_meta ps)) None None)),
        tr, st')) /\
  (forall query (st : CacheState) (t : string) e tr st',
     t <> "" -> query t st = (Throw e, tr, st') ->
     GET_tag_with query (Some t) st =
       (Return (respond 500 (mkAPIResponse false None
                               (Some "Failed to fetch blog posts by tag")
                               (Some (error_message e)))), tr, st')).
Proof.
  assert (Hne : forall s, s <> "" -> String.eqb s "" = false)
    by (intros s Hs; apply String.eqb_neq; exact Hs).
  repeat split.
  - intros w st s tr st' Hs Hl. unfold GET_slug, GET_slug_with, try_catch.
    rewrite (Hne s Hs). unfold bind at 1. rewrite Hl. cbn. rewrite app_nil_r. reflexivity.
  - intros w st s p tr st' Hs Hl. unfold GET_slug, GET_slug_with, try_catch.
    rewrite (Hne s Hs). unfold bind at 1. rewrite Hl. cbn. rewrite app_nil_r. reflexivity.
  - intros lookup st s e tr st' Hs Hl. unfold GET_slug_with, try_catch.
    rewrite (Hne s Hs). unfold bind at 1. rewrite Hl. cbn. rewrite app_nil_r. reflexivity.
  - intros w st t ps tr st' Ht Hq. unfold GET_tag, GET_tag_with, try_catch.
    rewrite (Hne t Ht). unfold bind at 1. rewrite Hq. cbn. rewrite app_nil_r. reflexivity.
  - intros query st t e tr st' Ht Hq. unfold GET_tag_with, try_catch.
    rewrite (Hne t Ht). unfold bind at 1. rewrite Hq. cbn. rewrite app_nil_r. reflexivity.
Qed.

(** ** C7 *)

(** Order-preserving sub-sequence. *)
Inductive subseq {A} : list A -> list A -> Prop :=
| subseq_nil : subseq [] []
| subseq_keep x l1 l2 : subseq l1 l2 -> subseq (x :: l1) (x :: l2)
| subseq_drop x l1 l2 : subseq l1 l2 -> subseq l1 (x :: l2).

Lemma includes_In (l : list string) (x : string) : includes l x = true <-> In x l.
Proof.
  unfold includes. rewrite existsb_exists. split.
  - intros (y & Hy & E). apply String.eqb_eq in E. subst. exact Hy.
  - intros Hx. exists x. split; [exact Hx | apply String.eqb_refl].
Qed.

Lemma filter_subseq {A} (f : A -> bool) (l : list A) : subseq (List.filter f l) l.
Proof.
  induction l as [| x l IH]; cbn; [constructor |].
  destruct (f x); constructor; exact IH.
Qed.

Lemma filter_partition {A} (f : A -> bool) (l : list A) :
  Permutation l (List.filter f l ++ List.filter (fun x => negb (f x)) l).
Proof.
  induction l as [| x l IH]; cbn; [constructor |].
  destruct (f x); cbn.
  - constructor. exact IH.
  - apply Permutation_cons_app. exact IH.
Qed.

Lemma find_first {A} (f : A -> bool) (l : list A) (p : A) :
  List.find f l = Some p ->
  exists pre post, l = (pre ++ p :: post)%list /\ f p = true /\
                   Forall (fun q => f q = false) pre.
Proof.
  induction l as [| x l IH]; cbn; [discriminate |].
  destruct (f x) eqn:Fx.
  - intros H. inversion H; subst. exists [], l. auto.
  - intros H. destruct (IH H) as (pre & post & -> & Fp & Hpre).
    exists (x :: pre), post. auto.
Qed.

Lemma find_none_Forall {A} (f : A -> bool) (l : list A) :
  List.find f l = None <-> Forall (fun q => f q = false) l.
Proof.
  induction l as [| x l IH]; cbn; [split; auto |].
  destruct (f x) eqn:Fx; split.
  - discriminate.
  - intros H. inversion H; congruence.
  - intros H. constructor; [exact Fx | apply IH; exact H].
  - intros H. inversion H; subst. apply IH. assumption.
Qed.

(** Claim C7: [getPostsByTag t] returns, in their order, exactly the posts
    of [getAllPosts] whose tags contain [t]: the result is an ordered
    sub-sequence of all posts, its members are the posts carrying [t],
    and the posts left out all lack [t].  [getPostBySlug s] returns the
    first post whose slug is [s], and [null] exactly when no post has
    slug [s]. *)
Theorem getPostsByTag_getPostBySlug (w : World) (st : CacheState)
  (allPosts : list BlogPost) (tr : list Event) (st' : CacheState)
  (Hall : getAllPosts w st = (Return allPosts, tr, st')) (t s : string) :
  (exists ps,
     getPostsByTag w t st = (Return ps, tr, st') /\
     subseq ps allPosts /\
     (forall p, In p ps <-> In p allPosts /\ In t (tags p)) /\
     (exists rest, Permutation allPosts (ps ++ rest) /\
                   Forall (fun p => ~ In t (tags p)) rest)) /\
  (exists r,
     getPostBySlug w s st = (Return r, tr, st') /\
     (forall p, r = Some p ->
        exists pre post, allPosts = (pre ++ p :: post)%list /\ slug p = s /\
                         Forall (fun q => slug q <> s) pre) /\
     (r = None <-> Forall (fun q => slug q <> s) allPosts)).
Proof.
  split.
  - eexists. split.
    { unfold getPostsByTag. unfold bind at 1. rewrite Hall. cbn. rewrite app_nil_r.
      reflexivity. }
    split; [apply filter_subseq |]. split.
    + intros p. rewrite filter_In, includes_In. reflexivity.
    + eexists. split; [apply filter_partition |].
      apply Forall_forall. intros p Hp. apply filter_In in Hp as [_ Hp].
      rewrite <- includes_In. destruct (includes (tags p) t); [discriminate | discriminate].
  - eexists. split.
    { unfold getPostBySlug. unfold bind at 1. rewrite Hall. cbn. rewrite app_nil_r.
      reflexivity. }
    split.
    + intros p Hp. destruct (find_first _ _ _ Hp) as (pre & post & Hl & Hs & Hpre).
      exists pre, post. split; [exact Hl |]. split; [apply String.eqb_eq; exact Hs |].
      eapply Forall_impl; [| exact Hpre]. intros q Hq. apply String.eqb_neq. exact Hq.
    + rewrite find_none_Forall. split; intros H; eapply Forall_impl; try exact H;
        intros q Hq; cbn in *; [apply String.eqb_neq | apply String.eqb_neq in Hq]; exact Hq.
Qed.

(** ** C8 *)

Lemma set_add_spec (s : list string) (x : string) :
  NoDup s -> NoDup (set_add s x) /\ (forall y, In y (set_add s x) <-> In y s \/ y = x).
Proof.
  intros Hs. unfold set_add. destruct (includes s x) eqn:E.
  - apply includes_In in E. split; [exact Hs |].
    intros y. split; [auto | intros [H | ->]; auto].
  - assert (Hx : ~ In x s) by (rewrite <- includes_In; congruence).
    split.
    + apply NoDup_app; [exact Hs | constructor; [auto | constructor] |].
      intros y Hy Hy'. destruct Hy' as [<- | []]. contradiction.
    + intros y. rewrite in_app_iff. cbn. intuition.
Qed.

Lemma fold_set_add_spec (xs s : list string) :
  NoDup s ->
  NoDup (fold_left set_add xs s) /\
  (forall y, In y (fold_left set_add xs s) <-> In y s \/ In y xs).
Proof.
  revert s. induction xs as [| x xs IH]; intros s Hs; cbn.
  - split; [exact Hs | intros y; intuition].
  - destruct (set_add_spec s x Hs) as [Hs' Hin].
    destruct (IH (set_add s x) Hs') as [Hnd Hiff].
    split; [exact Hnd |]. intros y. rewrite Hiff, Hin. intuition.
Qed.

Lemma fold_posts_spec (ps : list BlogPost) (s : list string) :
  NoDup s ->
  NoDup (fold_left (fun s post => fold_left set_add (tags post) s) ps s) /\
  (forall y, In y (fold_left (fun s post => fold_left set_add (tags post) s) ps s) <->
             In y s \/ exists p, In p ps /\ In y (tags p)).
Proof.
  revert s. induction ps as [| p ps IH]; intros s Hs; cbn.
  - split; [exact Hs |]. intros y. split; [auto | intros [H | (q & [] & _)]; exact H].
  - destruct (fold_set_add_spec (tags p) s Hs) as [Hs' Hin].
    destruct (IH _ Hs') as [Hnd Hiff].
    split; [exact Hnd |]. intros y. rewrite Hiff, Hin. split.
    + intros [[H | H] | (q & Hq & Hy)]; eauto.
    + intros [H | (q & [<- | Hq] & Hy)]; eauto.
Qed.

Lemma insert_sorted_perm (x : string) (l : list string) :
  Permutation (insert_sorted x l) (x :: l).
Proof.
  induction l as [| y l IH]; cbn; [reflexivity |].
  destruct (String.ltb x y); [reflexivity |].
  rewrite IH. apply perm_swap.
Qed.

Lemma js_sort_perm (l : list string) : Permutation (js_sort l) l.
Proof.
  induction l as [| x l IH]; cbn; [reflexivity |].
  rewrite insert_sorted_perm. constructor. exact IH.
Qed.

(** Claim C8: [getAllTags] returns each tag used by some post of
    [getAllPosts] exactly once, and nothing else. *)
Theorem getAllTags_spec (w : World) (st : CacheState)
  (allPosts : list BlogPost) (tr : list Event) (st' : CacheState)
  (Hall : getAllPosts w st = (Return allPosts, tr, st')) :
  exists ts,
    getAllTags w st = (Return ts, tr, st') /\
    NoDup ts /\
    (forall x, In x ts <-> exists p, In p allPosts /\ In x (tags p)).
Proof.
  eexists. split.
  { unfold getAllTags. unfold bind at 1. rewrite Hall. cbn. rewrite app_nil_r.
    reflexivity. }
  destruct (fold_posts_spec allPosts [] (NoDup_nil _)) as [Hnd Hiff].
  split.
  - eapply Permutation_NoDup; [symmetry; apply js_sort_perm | exact Hnd].
  - intros x. split.
    + intros Hx. apply (Permutation_in _ (js_sort_perm _)) in Hx.
      apply Hiff in Hx as [[] | H]. exact H.
    + intros H. apply (Permutation_in _ (Permutation_sym (js_sort_perm _))).
      apply Hiff. right. exact H.
Qed.

(** ** C10 *)

Lemma js_slice_0_length {A} (l : list A) (n : Z) :
  (0 <= n)%Z -> List.length (js_slice l 0 n) = Nat.min (Z.to_nat n) (List.length l).
Proof.
  intros Hn. unfold js_slice. cbv zeta.
  destruct (Z.ltb_spec n 0) as [Hlt | _]; [lia |].
  rewrite length_firstn, length_skipn. cbn. lia.
Qed.

(** Claim C10: [getFeaturedPosts] returns [min(3, n)] posts; the [i]-th is
    the [i]-th post of [getAllPosts] ([i < 3]) with [featured] set to
    [true] and every other field unchanged. *)
Theorem getFeaturedPosts_spec (w : World) (st : CacheState)
  (allPosts : list BlogPost) (tr : list Event) (st' : CacheState)
  (Hall : getAllPosts w st = (Return allPosts, tr, st')) :
  exists fs,
    getFeaturedPosts w st = (Return fs, tr, st') /\
    List.length fs = Nat.min 3 (List.length allPosts) /\
    (forall (i : nat) (q : BlogPost), nth_error fs i = Some q ->
       (i < 3)%nat /\
       exists p, nth_error allPosts i = Some p /\
         featured q = true /\ id q = id p /\ title q = title p /\ slug q = slug p /\
         excerpt q = excerpt p /\ content q = content p /\ author q = author p /\
         publishedAt q = publishedAt p /\ updatedAt q = updatedAt p /\
         tags q = tags p /\ published q = published p /\ coverImage q = coverImage p).
Proof.
  eexists. split.
  { unfold getFeaturedPosts. unfold bind at 1. rewrite Hall. cbn. rewrite app_nil_r.
    reflexivity. }
  split.
  - rewrite length_map, js_slice_0_length by lia. reflexivity.
  - intros i q Hq.
    change (js_slice allPosts 0 3) with (js_slice allPosts 0 (0 + 3)) in Hq.
    rewrite nth_error_map, js_slice_nth in Hq by lia.
    destruct (Z.ltb_spec (Z.of_nat i) 3) as [Hi | Hi]; [| discriminate Hq].
    split; [lia |].
    cbn [Z.to_nat Nat.add] in Hq.
    destruct (nth_error allPosts i) as [p |] eqn:Hp; [| discriminate Hq].
    cbn in Hq. inversion Hq; subst. exists p. repeat split.
Qed.

(** * Concrete runs

    [offline] is a world in which every request fails: the first call of
    [getAllPosts] serves the three fallback posts and caches them. *)

Definition offline : World := mkWorld 0 (fun _ => NetworkFailure).

Definition offline_trace : list Event :=
  [EvFetch 1; EvSleep 2000; EvFetch 2; EvSleep 4000; EvFetch 3].

Definition cache_after_offline : CacheState :=
  {| postsCache := Some getFallbackPosts; cacheTimestamp := 0 |}.

Lemma getAllPosts_offline :
  getAllPosts offline initialCache = (Return getFallbackPosts, offline_trace, cache_after_offline).
Proof. reflexivity. Qed.

Lemma getAllPosts_cache_witness :
  (0 - 0 < 5 * 60 * 1000)%Z /\
  getAllPosts offline cache_after_offline = (Return getFallbackPosts, [], cache_after_offline).
Proof.
  split; [lia |].
  apply (proj1 (getAllPosts_cache offline cache_after_offline) getFallbackPosts);
    [reflexivity | cbn; lia].
Defined.

Lemma fetchWordPressPosts_backoff_witness :
  attempt_failed (net offline 1) /\
  exists rest, trace_of (fetchWordPressPosts offline initialCache) =
               EvFetch 1 :: EvSleep (1 * 2000) :: EvFetch 2 :: rest.
Proof.
  split; [exact network_failure_fails |].
  exact (proj1 (proj2 (fetchWordPressPosts_backoff offline initialCache))
               network_failure_fails).
Defined.

Lemma getPaginatedPosts_spec_witness :
  (1 <= 2)%Z /\
  exists pg, getPaginatedPosts offline 2 2 initialCache
               = (Return pg, offline_trace, cache_after_offline) /\
             totalPosts (pagination pg) = 3%Z.
Proof.
  split; [lia |].
  destruct (getPaginatedPosts_spec offline initialCache 2 2 ltac:(lia) ltac:(lia)
              getFallbackPosts offline_trace cache_after_offline getAllPosts_offline)
    as (pg & Hpg & _ & Htot & _).
  exists pg. split; [exact Hpg | rewrite Htot; reflexivity].
Defined.

Lemma route_handlers_spec_witness :
  "nope" <> "" /\
  GET_slug offline (Some "nope") initialCache =
    (Return (respond 404 (mkAPIResponse false None (Some "Post not found") None)),
     offline_trace, cache_after_offline).
Proof.
  assert (Hs : "nope" <> "") by discriminate.
  split; [exact Hs |].
  apply (proj1 (proj2 route_handlers_spec) offline initialCache "nope"
           offline_trace cache_after_offline Hs).
  reflexivity.
Defined.

Lemma getPostsByTag_getPostBySlug_witness :
  exists ps, getPostsByTag offline "care-homes" initialCache
               = (Return ps, offline_trace, cache_after_offline) /\
             subseq ps getFallbackPosts.
Proof.
  destruct (getPostsByTag_getPostBySlug offline initialCache getFallbackPosts
              offline_trace cache_after_offline getAllPosts_offline
              "care-homes" "care-home-proxy-access")
    as [(ps & Hps & Hsub & _) _].
  exists ps. split; [exact Hps | exact Hsub].
Defined.

Lemma getAllTags_spec_witness :
  exists ts, getAllTags offline initialCache = (Return ts, offline_trace, cache_after_offline) /\
             NoDup ts.
Proof.
  destruct (getAllTags_spec offline initialCache getFallbackPosts offline_trace
              cache_after_offline getAllPosts_offline) as (ts & Hts & Hnd & _).
  exists ts. split; [exact Hts | exact Hnd].
Defined.

Lemma getAllPosts_nonempty_witness :
  reachable initialCache /\
  exists ps tr st', getAllPosts offline initialCache = (Return ps, tr, st') /\ ps <> [].
Proof.
  split; [exact reachable_init |].
  destruct (getAllPosts_nonempty initialCache reachable_init offline)
    as ((ps & tr & st' & Hg & Hne & _) & _).
  exists ps, tr, st'. split; [exact Hg | exact Hne].
Defined.

Lemma getFeaturedPosts_spec_witness :
  exists fs, getFeaturedPosts offline initialCache = (Return fs, offline_trace, cache_after_offline) /\
             List.length fs = 3%nat.
Proof.
  destruct (getFeaturedPosts_spec offline initialCache getFallbackPosts offline_trace
              cache_after_offline getAllPosts_offline) as (fs & Hfs & Hlen & _).
  exists fs. split; [exact Hfs | rewrite Hlen; reflexivity].
Defined.

(** * Further properties of [src/lib/blog.ts] and the routes *)

(** ** [transformWordPressPost] *)


Lemma strip_tags_spec (s : string) :
  (tag_free (strip_tags s) = true /\ (has_gt (strip_tags s) = true -> has_gt s = true)) /\
  (tag_free (skip_tag s) = true /\ (has_gt (skip_tag s) = true -> has_gt s = true)).
Proof.
  induction s as [| c rest [[IHf IHg] [IHsf IHsg]]]; [split; split; cbn; auto |].
  split.
  - cbn [strip_tags]. destruct (Ascii.eqb c "<" && has_gt rest) eqn:E.
    + split; [exact IHsf |]. intros H. cbn. rewrite (IHsg H). apply orb_true_r.
    + cbn [tag_free has_gt]. split.
      * rewrite IHf, andb_true_r. apply andb_false_iff in E. destruct E as [E | E].
        -- rewrite E. reflexivity.
        -- destruct (has_gt (strip_tags rest)) eqn:G;
             [rewrite (IHg eq_refl) in E; discriminate | apply orb_true_r].
      * intros H. apply orb_true_iff in H as [H | H];
          [rewrite H; reflexivity | rewrite (IHg H); apply orb_true_r].
  - cbn [skip_tag has_gt]. destruct (Ascii.eqb c ">") eqn:E.
    + split; [exact IHf | intros _; reflexivity].
    + split; [exact IHsf | intros H; rewrite (IHsg H); reflexivity].
Qed.

Lemma strip_tags_id (s : string) : tag_free s = true -> strip_tags s = s.
Proof.
  induction s as [| c rest IH]; cbn; [reflexivity |].
  intros H. apply andb_true_iff in H as [H1 H2].
  destruct (Ascii.eqb c "<" && has_gt rest) eqn:E.
  - apply andb_true_iff in E as [E1 E2]. rewrite E1, E2 in H1. discriminate.
  - rewrite (IH H2). reflexivity.
Qed.

(** Extra X2: the tag stripping of the excerpt ([replace(/<[^>]*>/g, "")])
    leaves no ['<'] with a ['>'] after it, so applying it again changes
    nothing, and it leaves a string without such a pair unchanged. *)
Theorem strip_tags_idempotent (s : string) :
  tag_free (strip_tags s) = true /\
  strip_tags (strip_tags s) = strip_tags s /\
  (tag_free s = true -> strip_tags s = s).
Proof.
  destruct (strip_tags_spec s) as [[Hf _] _].
  split; [exact Hf |]. split; [exact (strip_tags_id _ Hf) | exact (strip_tags_id s)].
Qed.

Lemma strip_tags_idempotent_witness :
  tag_free "plain text" = true /\ strip_tags "plain text" = "plain text".
Proof.
  assert (H : tag_free "plain text" = true) by reflexivity.
  split; [exact H | exact (proj2 (proj2 (strip_tags_idempotent "plain text")) H)].
Defined.















(** ** [fetchWordPressPosts] *)

Lemma run_attempt_return (o : FetchOutcome) (ps : list BlogPost) :
  run_attempt o = Return ps ->
  exists status wpPosts, o = Response status (BodyPosts wpPosts) /\
    response_ok status = true /\ wpPosts <> [] /\ ps = map transformWordPressPost wpPosts.
Proof.
  destruct o as [| s b]; cbn; [discriminate |].
  destruct (response_ok s) eqn:Ok; cbn; [| discriminate].
  destruct b as [| | [| wp wps] |]; try discriminate.
  intros H. inversion H; subst. exists s, (wp :: wps). repeat split; auto. discriminate.
Qed.

(** Extra X5: [fetchWordPressPosts] returns the fallback posts only after
    all three attempts failed; otherwise it returns the transformation of
    the posts of the first attempt [k] that got a 2xx response with a
    non-empty post array, after sending exactly [k] requests. *)
Theorem fetchWordPressPosts_result (w : World) (st : CacheState) :
  exists ps tr, fetchWordPressPosts w st = (Return ps, tr, st) /\
  ((ps = getFallbackPosts /\ count_fetches tr = 3%nat /\
    forall k, (1 <= k <= 3)%nat -> attempt_failed (net w k)) \/
   exists k status wpPosts,
     (1 <= k <= 3)%nat /\ (forall j, (1 <= j < k)%nat -> attempt_failed (net w j)) /\
     net w k = Response status (BodyPosts wpPosts) /\ response_ok status = true /\
     wpPosts <> [] /\ ps = map transformWordPressPost wpPosts /\ count_fetches tr = k).
Proof.
  rewrite fetchWordPressPosts_unfold.
  destruct (run_attempt (net w 1)) as [ps1 | e1] eqn:E1.
  { destruct (run_attempt_return _ _ E1) as (s & wps & Ho & Hok & Hne & ->).
    do 2 eexists. split; [reflexivity |]. right. exists 1%nat, s, wps.
    repeat split; auto; lia. }
  destruct (run_attempt (net w 2)) as [ps2 | e2] eqn:E2.
  { destruct (run_attempt_return _ _ E2) as (s & wps & Ho & Hok & Hne & ->).
    do 2 eexists. split; [reflexivity |]. right. exists 2%nat, s, wps.
    repeat split; auto; try lia.
    intros j Hj. assert (j = 1%nat) as -> by lia. exists e1. exact E1. }
  destruct (run_attempt (net w 3)) as [ps3 | e3] eqn:E3.
  { destruct (run_attempt_return _ _ E3) as (s & wps & Ho & Hok & Hne & ->).
    do 2 eexists. split; [reflexivity |]. right. exists 3%nat, s, wps.
    repeat split; auto; try lia.
    intros j Hj. assert (j = 1%nat \/ j = 2%nat) as [-> | ->] by lia; eexists; eassumption. }
  do 2 eexists. split; [reflexivity |]. left. split; [reflexivity | split; [reflexivity |]].
  intros k Hk. assert (k = 1%nat \/ k = 2%nat \/ k = 3%nat) as [-> | [-> | ->]] by lia;
    eexists; eassumption.
Qed.

(** ** [getAllPosts] *)

(** Extra X6: after [getAllPosts] returns [ps], the cache holds exactly
    [ps]; when the call sent requests the timestamp is that call's
    [Date.now()]; and any later call less than five minutes after the
    timestamp returns the same [ps] without a request and without
    touching the cache. *)
Theorem getAllPosts_reuse (w1 : World) (st : CacheState) ps tr st1
  (H1 : getAllPosts w1 st = (Return ps, tr, st1)) :
  postsCache st1 = Some ps /\
  (tr <> [] -> cacheTimestamp st1 = now w1) /\
  (forall w2 : World, (now w2 - cacheTimestamp st1 < 5 * 60 * 1000)%Z ->
     getAllPosts w2 st1 = (Return ps, [], st1)).
Proof.
  assert (Hc : postsCache st1 = Some ps /\ (tr <> [] -> cacheTimestamp st1 = now w1)).
  { destruct (postsCache st) as [c |] eqn:Hcs.
    - destruct (Z_lt_ge_dec (now w1 - cacheTimestamp st) CACHE_DURATION) as [Hlt | Hge].
      + rewrite (getAllPosts_hit w1 st c Hcs Hlt) in H1. inversion H1; subst.
        split; [exact Hcs | intros Hne; contradiction].
      + destruct (getAllPosts_miss w1 st (or_intror Hge)) as (ps' & tr' & _ & Hg).
        rewrite Hg in H1. inversion H1; subst. split; reflexivity.
    - destruct (getAllPosts_miss w1 st (or_introl Hcs)) as (ps' & tr' & _ & Hg).
      rewrite Hg in H1. inversion H1; subst. split; reflexivity. }
  destruct Hc as [Hc Ht]. split; [exact Hc | split; [exact Ht |]].
  intros w2 Hlt. exact (getAllPosts_hit w2 st1 ps Hc Hlt).
Qed.

Lemma getAllPosts_reuse_witness :
  postsCache cache_after_offline = Some getFallbackPosts /\
  getAllPosts (mkWorld 299999 (fun _ => NetworkFailure)) cache_after_offline
    = (Return getFallbackPosts, [], cache_after_offline).
Proof.
  destruct (getAllPosts_reuse offline initialCache getFallbackPosts offline_trace
              cache_after_offline getAllPosts_offline) as (Hc & _ & Hr).
  split; [exact Hc | apply Hr; cbn; lia].
Defined.

(** ** [getPaginatedPosts] *)

(** The page object built by [getPaginatedPosts] from [allPosts]. *)
Definition page_of (allPosts : list BlogPost) (page limit : Z) : PaginatedBlogPosts :=
  let startIndex := ((page - 1) * limit)%Z in
  let endIndex := (startIndex + limit)%Z in
  let total := Z.of_nat (List.length allPosts) in
  let pages := js_ceil_div total limit in
  {| posts := map post_to_meta (js_slice allPosts startIndex endIndex);
     pagination := {| currentPage := page;
                      totalPages := pages;
                      totalPosts := total;
                      hasNext := (page <? pages)%Z;
                      hasPrev := (1 <? page)%Z |} |}.

Lemma getPaginatedPosts_run (w : World) (st : CacheState) (page limit : Z)
  allPosts tr st' :
  getAllPosts w st = (Return allPosts, tr, st') ->
  getPaginatedPosts w page limit st = (Return (page_of allPosts page limit), tr, st').
Proof.
  intros Hall. unfold getPaginatedPosts. unfold bind at 1. rewrite Hall.
  cbv beta iota zeta delta [ret]. rewrite app_nil_r. reflexivity.
Qed.

Lemma js_slice_nonneg {A} (l : list A) (s lim : Z) :
  (0 <= s)%Z -> (0 <= lim)%Z ->
  js_slice l s (s + lim) = firstn (Z.to_nat lim) (skipn (Z.to_nat s) l).
Proof.
  intros Hs Hl. apply nth_error_ext. intros i.
  rewrite js_slice_nth by assumption. rewrite nth_error_firstn, nth_error_skipn.
  destruct (Z.ltb_spec (Z.of_nat i) lim), (Nat.ltb_spec i (Z.to_nat lim));
    first [reflexivity | lia].
Qed.

Lemma firstn_skipn_add {A} (a b : nat) (l : list A) :
  (firstn a l ++ firstn b (skipn a l))%list = firstn (a + b) l.
Proof.
  revert l. induction a as [| a IH]; intros l; [reflexivity |].
  destruct l as [| x l]; cbn.
  - destruct b; reflexivity.
  - f_equal. apply IH.
Qed.

Lemma pages_concat {A} (l : list A) (lim : Z) (n : nat) :
  (0 <= lim)%Z ->
  List.concat (map (fun k => js_slice l (Z.of_nat k * lim) (Z.of_nat k * lim + lim)) (seq 0 n))
  = firstn (n * Z.to_nat lim) l.
Proof.
  intros Hl. induction n as [| n IH]; [reflexivity |].
  rewrite seq_S, map_app, concat_app, IH. cbn [map List.concat]. rewrite app_nil_r.
  rewrite js_slice_nonneg by lia.
  rewrite Z2Nat.inj_mul, Nat2Z.id by lia. rewrite firstn_skipn_add.
  f_equal. lia.
Qed.

Lemma Forall2_map_self {A B} (P : A -> B -> Prop) (f : A -> B) (l : list A) :
  (forall x, In x l -> P x (f x)) -> Forall2 P l (map f l).
Proof.
  induction l as [| x l IH]; intros H; cbn; constructor.
  - apply H. left. reflexivity.
  - apply IH. intros y Hy. apply H. right. exact Hy.
Qed.

Lemma js_ceil_div_nonneg (a b : Z) : (0 <= a)%Z -> (0 < b)%Z -> (0 <= js_ceil_div a b)%Z.
Proof.
  intros Ha Hb. pose proof (js_ceil_div_spec a b Hb). nia.
Qed.

(** Extra X7: with [limit >= 1], requesting pages [1], [2], ...,
    [totalPages] of the same post list and concatenating their [posts]
    gives every post's meta once, in order; each page reports the same
    [totalPages], the number of pages requested. *)
Theorem getPaginatedPosts_pages_cover (w : World) (st : CacheState) (limit : Z)
  (Hlimit : (1 <= limit)%Z) allPosts tr st'
  (Hall : getAllPosts w st = (Return allPosts, tr, st')) :
  exists pgs,
    Forall2 (fun p pg => getPaginatedPosts w p limit st = (Return pg, tr, st'))
      (map Z.of_nat (seq 1 (Z.to_nat (js_ceil_div (Z.of_nat (List.length allPosts)) limit))))
      pgs /\
    (forall pg, In pg pgs -> totalPages (pagination pg) = Z.of_nat (List.length pgs)) /\
    List.concat (map posts pgs) = map post_to_meta allPosts.
Proof.
  set (len := Z.of_nat (List.length allPosts)).
  set (tp := js_ceil_div len limit).
  assert (Htp : (0 <= tp)%Z) by (apply js_ceil_div_nonneg; lia).
  pose proof (js_ceil_div_spec len limit ltac:(lia)) as Hsp. fold tp in Hsp.
  set (pages := map Z.of_nat (seq 1 (Z.to_nat tp))).
  exists (map (fun p => page_of allPosts p limit) pages). split; [| split].
  - apply Forall2_map_self. intros p _. apply getPaginatedPosts_run. exact Hall.
  - intros pg Hin. apply in_map_iff in Hin as (p & <- & _).
    unfold pages. rewrite !length_map, length_seq. cbn. fold len tp. lia.
  - rewrite map_map. cbn [posts page_of].
    rewrite <- (map_map (fun p => js_slice allPosts ((p - 1) * limit) ((p - 1) * limit + limit))
                        (map post_to_meta)).
    rewrite <- concat_map. f_equal.
    unfold pages. rewrite <- seq_shift, !map_map.
    rewrite (map_ext _ (fun k => js_slice allPosts (Z.of_nat k * limit) (Z.of_nat k * limit + limit))).
    2: { intros k. replace (Z.of_nat (S k) - 1)%Z with (Z.of_nat k) by lia. reflexivity. }
    rewrite pages_concat by lia. apply firstn_all2.
    apply Nat2Z.inj_le. rewrite Nat2Z.inj_mul, !Z2Nat.id by lia. fold len. lia.
Qed.

Lemma getPaginatedPosts_pages_cover_witness :
  (1 <= 2)%Z /\
  exists pgs,
    Forall2 (fun p pg => getPaginatedPosts offline p 2 initialCache
                         = (Return pg, offline_trace, cache_after_offline))
      (map Z.of_nat (seq 1 (Z.to_nat (js_ceil_div (Z.of_nat (List.length getFallbackPosts)) 2))))
      pgs /\
    List.concat (map posts pgs) = map post_to_meta getFallbackPosts.
Proof.
  split; [lia |].
  destruct (getPaginatedPosts_pages_cover offline initialCache 2 ltac:(lia) getFallbackPosts
              offline_trace cache_after_offline getAllPosts_offline) as (pgs & H1 & _ & H3).
  exists pgs. split; [exact H1 | exact H3].
Defined.

(** Extra X8: page [0] yields no posts and [hasPrev = false]; any page past
    [totalPages] yields no posts and [hasNext = false]. Neither is an
    error. *)
Theorem getPaginatedPosts_out_of_range (w : World) (st : CacheState) (page limit : Z)
  (Hlimit : (1 <= limit)%Z) allPosts tr st'
  (Hall : getAllPosts w st = (Return allPosts, tr, st')) :
  exists pg, getPaginatedPosts w page limit st = (Return pg, tr, st') /\
  (page = 0%Z -> posts pg = [] /\ hasPrev (pagination pg) = false) /\
  ((totalPages (pagination pg) < page)%Z -> posts pg = [] /\ hasNext (pagination pg) = false).
Proof.
  exists (page_of allPosts page limit). split; [apply getPaginatedPosts_run; exact Hall |].
  set (len := Z.of_nat (List.length allPosts)).
  pose proof (js_ceil_div_spec len limit ltac:(lia)) as Hsp.
  assert (Hlen : (0 <= len)%Z) by lia.
  cbn [posts pagination page_of totalPages hasNext hasPrev]. fold len.
  set (tp := js_ceil_div len limit) in *.
  split.
  - intros ->. split; [| reflexivity].
    unfold js_slice. cbv zeta. fold len.
    replace (Z.to_nat _) with 0%nat; [reflexivity |].
    destruct (Z.ltb_spec ((0 - 1) * limit) 0), (Z.ltb_spec ((0 - 1) * limit + limit) 0); lia.
  - intros Hgt. split; [| apply Z.ltb_ge; lia].
    unfold js_slice. cbv zeta. fold len.
    replace (Z.to_nat _) with 0%nat; [reflexivity |].
    destruct (Z.ltb_spec ((page - 1) * limit) 0), (Z.ltb_spec ((page - 1) * limit + limit) 0);
      nia.
Qed.

Lemma getPaginatedPosts_out_of_range_witness :
  (1 <= 1)%Z /\
  exists pg, getPaginatedPosts offline 4 1 initialCache
               = (Return pg, offline_trace, cache_after_offline) /\
             posts pg = [] /\ hasNext (pagination pg) = false.
Proof.
  split; [lia |].
  destruct (getPaginatedPosts_out_of_range offline initialCache 4 1 ltac:(lia) getFallbackPosts
              offline_trace cache_after_offline getAllPosts_offline) as (pg & Hpg & _ & Hout).
  exists pg. split; [exact Hpg |]. apply Hout.
  rewrite (getPaginatedPosts_run _ _ _ _ _ _ _ getAllPosts_offline) in Hpg.
  injection Hpg as <-. reflexivity.
Defined.

(** Extra X9: a negative page is not rejected: [slice] counts its negative
    indices from the end, so page [-k] returns the block of [limit] posts
    that starts [(k + 1) * limit] posts before the end, with
    [hasPrev = false]. *)
Theorem getPaginatedPosts_negative_page (w : World) (st : CacheState) (page limit : Z)
  (Hpage : (page <= -1)%Z) (Hlimit : (1 <= limit)%Z) allPosts tr st'
  (Hall : getAllPosts w st = (Return allPosts, tr, st'))
  (Hin : (0 <= Z.of_nat (List.length allPosts) + (page - 1) * limit)%Z) :
  exists pg, getPaginatedPosts w page limit st = (Return pg, tr, st') /\
  (forall i : nat,
     nth_error (posts pg) i =
     if (Z.of_nat i <? limit)%Z
     then option_map post_to_meta
            (nth_error allPosts
               (Z.to_nat (Z.of_nat (List.length allPosts) + (page - 1) * limit) + i))
     else None) /\
  hasPrev (pagination pg) = false.
Proof.
  exists (page_of allPosts page limit). split; [apply getPaginatedPosts_run; exact Hall |].
  cbn [posts pagination page_of hasPrev].
  split; [| apply Z.ltb_ge; lia].
  set (len := Z.of_nat (List.length allPosts)) in *.
  assert (Hs : js_slice allPosts ((page - 1) * limit) ((page - 1) * limit + limit)
               = firstn (Z.to_nat limit) (skipn (Z.to_nat (len + (page - 1) * limit)) allPosts)).
  { unfold js_slice. cbv zeta. fold len.
    destruct (Z.ltb_spec ((page - 1) * limit) 0); [| nia].
    destruct (Z.ltb_spec ((page - 1) * limit + limit) 0); [| nia].
    rewrite (Z.max_l (len + (page - 1) * limit) 0) by lia.
    rewrite (Z.max_l (len + ((page - 1) * limit + limit)) 0) by lia.
    f_equal. f_equal. lia. }
  intros i. rewrite nth_error_map, Hs, nth_error_firstn, nth_error_skipn.
  destruct (Z.ltb_spec (Z.of_nat i) limit), (Nat.ltb_spec i (Z.to_nat limit));
    first [reflexivity | lia].
Qed.

Lemma getPaginatedPosts_negative_page_witness :
  (-1 <= -1)%Z /\ (1 <= 1)%Z /\
  (0 <= Z.of_nat (List.length getFallbackPosts) + (-1 - 1) * 1)%Z /\
  exists pg, getPaginatedPosts offline (-1) 1 initialCache
               = (Return pg, offline_trace, cache_after_offline) /\
             nth_error (posts pg) 0 = option_map post_to_meta (nth_error getFallbackPosts 1).
Proof.
  assert (H3 : (0 <= Z.of_nat (List.length getFallbackPosts) + (-1 - 1) * 1)%Z)
    by (cbn; lia).
  split; [lia | split; [lia | split; [exact H3 |]]].
  destruct (getPaginatedPosts_negative_page offline initialCache (-1) 1 ltac:(lia) ltac:(lia)
              getFallbackPosts offline_trace cache_after_offline getAllPosts_offline H3)
    as (pg & Hpg & Hn & _).
  exists pg. split; [exact Hpg |]. rewrite Hn. reflexivity.
Defined.

(** ** [getAllTags] *)

Lemma getAllPosts_returns (w : World) (st : CacheState) :
  exists ps tr st', getAllPosts w st = (Return ps, tr, st').
Proof.
  destruct (postsCache st) as [c |] eqn:Hc.
  - destruct (Z_lt_ge_dec (now w - cacheTimestamp st) CACHE_DURATION) as [Hlt | Hge].
    + exists c, [], st. exact (getAllPosts_hit w st c Hc Hlt).
    + destruct (getAllPosts_miss w st (or_intror Hge)) as (ps & tr & _ & Hg). eauto.
  - destruct (getAllPosts_miss w st (or_introl Hc)) as (ps & tr & _ & Hg). eauto.
Qed.






(** ** The route handlers *)

(** The shape every answer of the three routes has. *)
Definition json_reply {T} (r : HttpResponse T) : Prop :=
  headers r = json_headers /\
  success (body r) = (status r =? 200)%Z /\
  (success (body r) = false -> data (body r) = None /\ error (body r) <> None).

Ltac solve_reply :=
  do 3 eexists; split; [reflexivity |];
  unfold json_reply; cbn;
  repeat split; intros;
  first [reflexivity | discriminate | repeat first [left; reflexivity | right]].

(** Extra X11: whatever the imported functions do, including rejecting,
    the three [GET] handlers never throw: each answers with the JSON
    headers, [success] exactly when the status is 200, no [data] and an
    [error] text otherwise, and a status among those the handler names. *)
Theorem handlers_reply
  (lookup : string -> M (option BlogPost)) (query : string -> M (list BlogPost))
  (getAll : M (list BlogPost)) (paginate : Z -> Z -> M PaginatedBlogPosts) :
  (forall param st, exists r tr st',
     GET_slug_with lookup param st = (Return r, tr, st') /\ json_reply r /\
     In (status r) [200; 400; 404; 500]%Z) /\
  (forall param st, exists r tr st',
     GET_tag_with query param st = (Return r, tr, st') /\ json_reply r /\
     In (status r) [200; 400; 500]%Z) /\
  (forall page limit fp st, exists r tr st',
     GET_index_with getAll paginate page limit fp st = (Return r, tr, st') /\ json_reply r /\
     In (status r) [200; 500]%Z).
Proof.
  split; [| split].
  - intros param st. unfold GET_slug_with, try_catch.
    destruct param as [s |]; [destruct (String.eqb s "") |].
    + solve_reply.
    + unfold bind. destruct (lookup s st) as [[[p | e] tr1] st1];
        [destruct p |]; solve_reply.
    + solve_reply.
  - intros param st. unfold GET_tag_with, try_catch.
    destruct param as [t |]; [destruct (String.eqb t "") |].
    + solve_reply.
    + unfold bind. destruct (query t st) as [[[ps | e] tr1] st1]; solve_reply.
    + solve_reply.
  - intros page limit fp st. unfold GET_index_with, try_catch. cbv zeta.
    destruct (match fp with Some v => String.eqb v "true" | None => false end).
    + unfold bind. destruct (getAll st) as [[[ps | e] tr1] st1]; solve_reply.
    + unfold bind. destruct (paginate page limit st) as [[[pg | e] tr1] st1]; solve_reply.
Qed.

(** Extra X12: with the library's [getPostsByTag], a non-empty tag that no
    post carries is answered 200 with an empty array, not 404. *)
Theorem GET_tag_unused (w : World) (st : CacheState) (t : string)
  allPosts tr st' (Hall : getAllPosts w st = (Return allPosts, tr, st'))
  (Ht : t <> "") (Hnone : forall p, In p allPosts -> ~ In t (tags p)) :
  GET_tag w (Some t) st =
    (Return (respond 200 (mkAPIResponse true (Some []) None None)), tr, st').
Proof.
  assert (Hf : List.filter (fun post => includes (tags post) t) allPosts = []).
  { clear - Hnone. induction allPosts as [| p ps IH]; [reflexivity |]. cbn.
    destruct (includes (tags p) t) eqn:E.
    - exfalso. apply (Hnone p); [left; reflexivity | apply includes_In; exact E].
    - apply IH. intros q Hq. apply Hnone. right. exact Hq. }
  unfold GET_tag, GET_tag_with, try_catch.
  apply String.eqb_neq in Ht. rewrite Ht.
  unfold bind at 1. unfold getPostsByTag. unfold bind at 1. rewrite Hall.
  cbv beta iota zeta delta [ret]. rewrite Hf. cbn. rewrite !app_nil_r. reflexivity.
Qed.

Lemma GET_tag_unused_witness :
  "no-such-tag" <> "" /\
  GET_tag offline (Some "no-such-tag") initialCache =
    (Return (respond 200 (mkAPIResponse true (Some []) None None)),
     offline_trace, cache_after_offline).
Proof.
  assert (Ht : "no-such-tag" <> "") by discriminate.
  split; [exact Ht |].
  apply (GET_tag_unused offline initialCache "no-such-tag" getFallbackPosts offline_trace
           cache_after_offline getAllPosts_offline Ht).
  intros p Hp Hin. apply includes_In in Hin. revert Hin.
  repeat (destruct Hp as [<- | Hp]; [vm_compute; discriminate |]). destruct Hp.
Defined.


(** Extra X14: with the library's lookups, the post and tag routes never
    answer 500 either: [getAllPosts] never rejects. *)
Theorem GET_slug_tag_no_500 (w : World) (st : CacheState) (param : option string) :
  (exists r tr st', GET_slug w param st = (Return r, tr, st') /\ status r <> 500%Z) /\
  (exists r tr st', GET_tag w param st = (Return r, tr, st') /\ status r <> 500%Z).
Proof.
  destruct (getAllPosts_returns w st) as (ps & tr & st' & Hall).
  split.
  - unfold GET_slug, GET_slug_with, try_catch.
    destruct param as [s |]; [destruct (String.eqb s "") |].
    + do 3 eexists. split; [reflexivity | cbn; discriminate].
    + unfold bind at 1. unfold getPostBySlug. unfold bind at 1. rewrite Hall.
      cbn -[List.find].
      destruct (List.find (fun post => String.eqb (slug post) s) ps);
        do 3 eexists; (split; [reflexivity | cbn; discriminate]).
    + do 3 eexists. split; [reflexivity | cbn; discriminate].
  - unfold GET_tag, GET_tag_with, try_catch.
    destruct param as [t |]; [destruct (String.eqb t "") |].
    + do 3 eexists. split; [reflexivity | cbn; discriminate].
    + unfold bind at 1. unfold getPostsByTag. unfold bind at 1. rewrite Hall.
      cbn -[List.filter].
      do 3 eexists. split; [reflexivity | cbn; discriminate].
    + do 3 eexists. split; [reflexivity | cbn; discriminate].
Qed.

(** ** Where a post's tags come from *)

(** Extra X15: every tag of a transformed post is the slug of a
    [post_tag] term of the FIRST group of [_embedded["wp:term"]]; terms of
    later groups never become tags. *)
Theorem transform_tags_origin (wp : WordPressPost) (t : string) :
  In t (tags (transformWordPressPost wp)) ->
  exists e g0 groups term,
    wp_embedded wp = Some e /\ emb_term e = Some (g0 :: groups) /\
    In term g0 /\ wt_taxonomy term = "post_tag" /\ wt_slug term = t.
Proof.
  unfold transformWordPressPost. cbv zeta. cbn [tags].
  destruct (wp_embedded wp) as [e |] eqn:He; cbn [option_map]; [| intros []].
  destruct (emb_term e) as [[| g0 groups] |] eqn:Ht; cbn [first]; try (intros []).
  intros H. apply in_map_iff in H as (term & Hs & Hin).
  apply filter_In in Hin as [Hin Htax]. apply String.eqb_eq in Htax.
  exists e, g0, groups, term. repeat split; assumption.
Qed.

Definition wp_with_terms (groups : list (list WpTerm)) : WordPressPost :=
  mkWordPressPost 5 "2025-01-01T00:00:00" "2025-01-01T00:00:00" "post" "publish"
    "Title" "<p>Body</p>" "<p>Excerpt</p>"
    (Some (mkWpEmbedded None None (Some groups))).

Lemma transform_tags_origin_witness :
  In "nhs" (tags (transformWordPressPost
                   (wp_with_terms [[mkWpTerm "nhs" "post_tag"]; [mkWpTerm "x" "post_tag"]]))) /\
  exists e g0 groups term,
    wp_embedded (wp_with_terms [[mkWpTerm "nhs" "post_tag"]; [mkWpTerm "x" "post_tag"]])
      = Some e /\ emb_term e = Some (g0 :: groups) /\
    In term g0 /\ wt_taxonomy term = "post_tag" /\ wt_slug term = "nhs".
Proof.
  assert (H : In "nhs" (tags (transformWordPressPost
                   (wp_with_terms [[mkWpTerm "nhs" "post_tag"]; [mkWpTerm "x" "post_tag"]])))).
  { vm_compute. left. reflexivity. }
  split; [exact H | exact (transform_tags_origin _ _ H)].
Defined.

(** ** Tags and the tag route together *)

Lemma getAllPosts_again (w : World) (st : CacheState) ps tr st1 :
  getAllPosts w st = (Return ps, tr, st1) -> getAllPosts w st1 = (Return ps, [], st1).
Proof.
  intros H1.
  destruct (postsCache st) as [c |] eqn:Hcs.
  - destruct (Z_lt_ge_dec (now w - cacheTimestamp st) CACHE_DURATION) as [Hlt | Hge].
    + rewrite (getAllPosts_hit w st c Hcs Hlt) in H1. inversion H1; subst.
      exact (getAllPosts_hit w st1 ps Hcs Hlt).
    + destruct (getAllPosts_miss w st (or_intror Hge)) as (ps' & tr' & _ & Hg).
      rewrite Hg in H1. inversion H1; subst.
      apply getAllPosts_hit; cbn; [reflexivity | unfold CACHE_DURATION; lia].
  - destruct (getAllPosts_miss w st (or_introl Hcs)) as (ps' & tr' & _ & Hg).
    rewrite Hg in H1. inversion H1; subst.
    apply getAllPosts_hit; cbn; [reflexivity | unfold CACHE_DURATION; lia].
Qed.

(** Extra X16: right after [getAllTags], at the same time, asking the tag
    route for any non-empty tag it listed answers 200 with a non-empty
    array, served from the cache without a request. *)
Theorem getAllTags_then_GET_tag (w : World) (st : CacheState) :
  exists ts tr st1, getAllTags w st = (Return ts, tr, st1) /\
  forall t, In t ts -> t <> "" ->
    exists metas, metas <> [] /\
    GET_tag w (Some t) st1 =
      (Return (respond 200 (mkAPIResponse true (Some metas) None None)), [], st1).
Proof.
  destruct (getAllPosts_returns w st) as (ps & tr & st1 & Hall).
  eexists _, tr, st1. split.
  { unfold getAllTags. unfold bind at 1. rewrite Hall. cbn. rewrite app_nil_r.
    reflexivity. }
  intros t Ht Hne.
  apply (Permutation_in _ (js_sort_perm _)) in Ht.
  apply (proj2 (fold_posts_spec ps [] (NoDup_nil _)) t) in Ht as [[] | (p & Hp & Htp)].
  exists (map post_to_meta (List.filter (fun post => includes (tags post) t) ps)). split.
  - intros Hnil. apply map_eq_nil in Hnil.
    assert (Hin : In p (List.filter (fun post => includes (tags post) t) ps)).
    { apply filter_In. split; [exact Hp | apply includes_In; exact Htp]. }
    rewrite Hnil in Hin. destruct Hin.
  - pose proof (getAllPosts_again w st ps tr st1 Hall) as Hagain.
    unfold GET_tag, GET_tag_with, try_catch.
    apply String.eqb_neq in Hne. rewrite Hne.
    unfold bind at 1. unfold getPostsByTag. unfold bind at 1. rewrite Hagain.
    cbv beta iota zeta delta [ret]. cbn -[List.filter]. reflexivity.
Qed.
